(** * crux: transcript resolver and watch page

    A shallow embedding of [src/lib/transcript.ts] (the cache-then-fetch
    resolver [getTranscript]) and of the watch page component [WatchPage],
    together with the properties the specification states about them.

    Modelling conventions.
    - A JavaScript string is a [string] (a sequence of bytes, read as UTF-8).
    - A JavaScript number that carries a millisecond offset or an HTTP status
      is a [Z]; fractional offsets are outside the model.
    - [await]ed calls to the outside world (KV namespace, [fetch], the body
      readers of a [Response]) are primitives of the monad [M]: they append
      an [Event] to the log of the invocation and either return or throw.
    - [console.*] calls have no influence on control flow and are left out.
    - [JSON.stringify] followed by the [{ type: 'json' }] read of the KV
      namespace is the identity on [TranscriptEntry[]]. *)

From Stdlib Require Import ZArith Ascii String List Bool Lia.
From Stdlib Require Import Sorted.
From stdpp Require Import base option strings gmap.
Import ListNotations.

Local Open Scope Z_scope.

(** ** Data model *)

(** [interface TranscriptEntry { offset: number; text: string }] *)
Record TranscriptEntry : Type := mkEntry {
  offset : Z;
  text : string
}.

(** [interface SupadataTranscriptResponse { transcript?: ...; error?: string }] *)
Record SupadataTranscriptResponse : Type := mkData {
  transcript : option (list TranscriptEntry);
  error : option string
}.

(** What the KV namespace keeps under a key: the value given to [put] and
    the [expirationTtl] option of that [put], if any. *)
Record CacheEntry : Type := mkCacheEntry {
  cached_value : list TranscriptEntry;
  expirationTtl : option Z
}.

(** The part of a [Response] that [getTranscript] reads.  [text_body] and
    [json_body] are what [response.text()] and [response.json()] resolve
    to; [None] stands for a rejected promise (the body could not be read,
    or it is not JSON). *)
Record Response : Type := mkResponse {
  status : Z;
  content_type : option string;
  text_body : option string;
  json_body : option SupadataTranscriptResponse
}.

(** [response.ok]: the status is in the range 200-299 (Fetch standard). *)
Definition ok (r : Response) : bool :=
  (200 <=? status r) && (status r <=? 299).

Inductive FetchOutcome : Type :=
| NetworkError
| Responded (r : Response).

(** The object bound to [TRANSCRIPT_CACHE].  Whether its [get] and [put]
    reject is a property of the binding (a plain string taken from
    [process.env] has neither method, so both calls throw). *)
Record KVNamespace : Type := mkKV {
  get_rejects : bool;
  put_rejects : bool
}.

(** [process.env], restricted to the two variables that are read. *)
Record ProcessEnv : Type := mkEnv {
  SUPADATA_API_KEY : option string;
  TRANSCRIPT_CACHE : option KVNamespace
}.

Definition Headers : Type := list (string * string).

(** Everything outside the program: the environment and the remote
    provider, which answers a GET for a URL with given request headers. *)
Record World : Type := mkWorld {
  env : ProcessEnv;
  remote : string -> Headers -> FetchOutcome
}.

(** ** Effects *)

Inductive GetOutcome : Type :=
| GetRejected
| GetNull
| GetValue (v : list TranscriptEntry).

Inductive Event : Type :=
| EvKvGet (key : string) (out : GetOutcome)
| EvFetch (url : string) (headers : Headers) (out : FetchOutcome)
| EvText (read : bool)
| EvJson (parsed : bool)
| EvKvPut (key : string) (value : list TranscriptEntry) (ttl : option Z)
          (stored : bool).

Inductive Outcome (A : Type) : Type :=
| Return (a : A)
| Throw.
Arguments Return {A} a.
Arguments Throw {A}.

(** A computation reads the store, and yields an outcome, the store it
    leaves behind and the events it performed, oldest first. *)
Definition M (A : Type) : Type :=
  gmap string CacheEntry -> Outcome A * gmap string CacheEntry * list Event.

Definition ret {A} (a : A) : M A := fun s => (Return a, s, []).

Definition throw {A} : M A := fun s => (Throw, s, []).

Definition bind {A B} (m : M A) (k : A -> M B) : M B :=
  fun s =>
    match m s with
    | (Return a, s1, t1) =>
        match k a s1 with
        | (o, s2, t2) => (o, s2, t1 ++ t2)
        end
    | (Throw, s1, t1) => (Throw, s1, t1)
    end.

(** [try { body } catch (e) { handler }] *)
Definition try_catch {A} (body : M A) (handler : M A) : M A :=
  fun s =>
    match body s with
    | (Return a, s1, t1) => (Return a, s1, t1)
    | (Throw, s1, t1) =>
        match handler s1 with
        | (o, s2, t2) => (o, s2, t1 ++ t2)
        end
    end.

Notation "'let*' x ':=' m 'in' k" := (bind m (fun x => k))
  (at level 10, x name, m at level 100, k at level 200).
Notation "m ';;' k" := (bind m (fun _ => k))
  (at level 100, k at level 200, right associativity).

Definition result {A} (r : Outcome A * gmap string CacheEntry * list Event)
  : Outcome A := fst (fst r).
Definition final_store {A} (r : Outcome A * gmap string CacheEntry * list Event)
  : gmap string CacheEntry := snd (fst r).
Definition events {A} (r : Outcome A * gmap string CacheEntry * list Event)
  : list Event := snd r.

(** [await kv.get<TranscriptEntry[]>(key, { type: 'json' })] *)
Definition kv_get (kv : KVNamespace) (key : string)
  : M (option (list TranscriptEntry)) :=
  fun s =>
    if get_rejects kv then (Throw, s, [EvKvGet key GetRejected])
    else match s !! key with
         | Some e => (Return (Some (cached_value e)), s,
                      [EvKvGet key (GetValue (cached_value e))])
         | None => (Return None, s, [EvKvGet key GetNull])
         end.

(** [await kv.put(key, JSON.stringify(value), { expirationTtl: ttl })];
    a rejected [put] stores nothing. *)
Definition kv_put (kv : KVNamespace) (key : string)
    (value : list TranscriptEntry) (ttl : option Z) : M unit :=
  fun s =>
    if put_rejects kv then (Throw, s, [EvKvPut key value ttl false])
    else (Return tt, <[key := mkCacheEntry value ttl]> s,
          [EvKvPut key value ttl true]).

(** [await fetch(url, { headers })] *)
Definition fetch (w : World) (url : string) (headers : Headers) : M Response :=
  fun s =>
    match remote w url headers with
    | NetworkError => (Throw, s, [EvFetch url headers NetworkError])
    | Responded r => (Return r, s, [EvFetch url headers (Responded r)])
    end.

(** [await response.text()] *)
Definition response_text (r : Response) : M string :=
  fun s =>
    match text_body r with
    | Some b => (Return b, s, [EvText true])
    | None => (Throw, s, [EvText false])
    end.

(** [await response.json()] *)
Definition response_json (r : Response) : M SupadataTranscriptResponse :=
  fun s =>
    match json_body r with
    | Some d => (Return d, s, [EvJson true])
    | None => (Throw, s, [EvJson false])
    end.

(** ** String helpers of the platform *)

(** Truthiness of a [string | undefined | null] value: [undefined], [null]
    and the empty string are falsy. *)
Definition truthy (v : option string) : bool :=
  match v with
  | Some EmptyString => false
  | Some _ => true
  | None => false
  end.

(** [hay.includes(needle)] *)
Fixpoint includes (needle hay : string) : bool :=
  if String.prefix needle hay then true
  else match hay with
       | EmptyString => false
       | String _ rest => includes needle rest
       end.

Definition hex_digit (n : N) : ascii :=
  match n with
  | 0%N => "0" | 1%N => "1" | 2%N => "2" | 3%N => "3" | 4%N => "4"
  | 5%N => "5" | 6%N => "6" | 7%N => "7" | 8%N => "8" | 9%N => "9"
  | 10%N => "A" | 11%N => "B" | 12%N => "C" | 13%N => "D" | 14%N => "E"
  | _ => "F"
  end%char.

(** The characters [encodeURIComponent] leaves alone:
    [A-Z a-z 0-9 - _ . ! ~ * ' ( )]. *)
Definition uri_unreserved (c : ascii) : bool :=
  let n := N_of_ascii c in
  ((65 <=? n) && (n <=? 90) || (97 <=? n) && (n <=? 122)
   || (48 <=? n) && (n <=? 57)
   || (n =? 45) || (n =? 95) || (n =? 46) || (n =? 33) || (n =? 126)
   || (n =? 42) || (n =? 39) || (n =? 40) || (n =? 41))%N.

(** [encodeURIComponent(s)] on a UTF-8 byte string: every other byte
    becomes [%XX].  (A JavaScript string with a lone surrogate, for which
    the function throws, has no UTF-8 form and is outside the model.) *)
Fixpoint encodeURIComponent (s : string) : string :=
  match s with
  | EmptyString => EmptyString
  | String c rest =>
      if uri_unreserved c then String c (encodeURIComponent rest)
      else let n := N_of_ascii c in
           String "%"%char
             (String (hex_digit (n / 16)%N)
                (String (hex_digit (n mod 16)%N) (encodeURIComponent rest)))
  end.

(** [contentType.includes("application/json")], for a header value that
    may be [null] (the test follows [!contentType ||], so the [null] case
    is never consulted). *)
Definition is_json (contentType : option string) : bool :=
  match contentType with
  | Some ct => includes "application/json" ct
  | None => false
  end.

(** ** [src/lib/transcript.ts] *)

(** [getTranscriptCacheKV]: the binding when [process.env.TRANSCRIPT_CACHE]
    is truthy, [null] otherwise. *)
Definition getTranscriptCacheKV (w : World) : option KVNamespace :=
  TRANSCRIPT_CACHE (env w).

Definition apiUrl (videoId : string) : string :=
  "https://api.supadata.ai/v1/youtube/transcript?videoId="
    +:+ encodeURIComponent videoId.

Definition requestHeaders (apiKey : string) : Headers :=
  [("X-API-Key", apiKey); ("Accept", "application/json")]%string.

(** [if (kv) { try { await kv.put(videoId, value, ttl) } catch { } }] *)
Definition cache_put (kv : option KVNamespace) (videoId : string)
    (value : list TranscriptEntry) (ttl : option Z) : M unit :=
  match kv with
  | Some k => try_catch (kv_put k videoId value ttl) (ret tt)
  | None => ret tt
  end.

(** Step 1 of [getTranscript]: the cache check.  [Some v] is the early
    [return cachedTranscript]; [None] falls through to the fetch. *)
Definition check_cache (kv : option KVNamespace) (videoId : string)
  : M (option (list TranscriptEntry)) :=
  match kv with
  | Some k => try_catch (kv_get k videoId) (ret None)
  | None => ret None
  end.

(** Steps 2 and 3: the body of the outer [try]. *)
Definition fetch_and_store (w : World) (kv : option KVNamespace)
    (apiKey videoId : string) : M (option (list TranscriptEntry)) :=
  let* response := fetch w (apiUrl videoId) (requestHeaders apiKey) in
  if negb (ok response) then
    let* errorBody := response_text response in
    if status response =? 404 then
      cache_put kv videoId [] (Some 3600) ;;
      ret (Some [])
    else ret None
  else
    let contentType := content_type response in
    if negb (truthy contentType) || negb (is_json contentType)
    then
      let* responseText := response_text response in
      ret None
    else
      let* data := response_json response in
      if truthy (error data) then ret None
      else
        match transcript data with
        | None =>
            cache_put kv videoId [] (Some 3600) ;;
            ret (Some [])
        | Some [] =>
            cache_put kv videoId [] (Some 3600) ;;
            ret (Some [])
        | Some (e :: es) =>
            cache_put kv videoId (e :: es) None ;;
            ret (Some (e :: es))
        end.

(** [getTranscript(videoId)]; [None] is the [null] failure marker. *)
Definition getTranscript (w : World) (videoId : string)
  : M (option (list TranscriptEntry)) :=
  let kv := getTranscriptCacheKV w in
  match SUPADATA_API_KEY (env w) with
  | None | Some EmptyString => ret None
  | Some apiKey =>
      let* cachedTranscript := check_cache kv videoId in
      match cachedTranscript with
      | Some v => ret (Some v)
      | None =>
          try_catch (fetch_and_store w kv apiKey videoId) (ret None)
      end
  end.

(** ** [Date.prototype.toISOString] (ECMAScript, proleptic Gregorian) *)

Definition msPerDay : Z := 86400000.
Definition maxTimeValue : Z := 8640000000000000.

Definition Day (t : Z) : Z := t / msPerDay.
Definition HourFromTime (t : Z) : Z := (t / 3600000) mod 24.
Definition MinFromTime (t : Z) : Z := (t / 60000) mod 60.
Definition SecFromTime (t : Z) : Z := (t / 1000) mod 60.
Definition msFromTime (t : Z) : Z := t mod 1000.

(** Year, month (1-12) and day of the month (1-31) of a day number counted
    from 1970-01-01. *)
Definition civil_from_days (days : Z) : Z * Z * Z :=
  let z := days + 719468 in
  let era := z / 146097 in
  let doe := z mod 146097 in
  let yoe := (doe - doe / 1460 + doe / 36524 - doe / 146096) / 365 in
  let doy := doe - (365 * yoe + yoe / 4 - yoe / 100) in
  let mp := (5 * doy + 2) / 153 in
  let d := doy - (153 * mp + 2) / 5 + 1 in
  let m := if mp <? 10 then mp + 3 else mp - 9 in
  let y := yoe + era * 400 in
  (if m <=? 2 then y + 1 else y, m, d).

Definition YearFromTime (t : Z) : Z := fst (fst (civil_from_days (Day t))).
Definition MonthFromTime (t : Z) : Z := snd (fst (civil_from_days (Day t))).
Definition DateFromTime (t : Z) : Z := snd (civil_from_days (Day t)).

Definition digit (d : Z) : ascii := ascii_of_N (Z.to_N (48 + d mod 10)).

Definition digits2 (n : Z) : string :=
  String (digit (n / 10)) (String (digit n) EmptyString).
Definition digits3 (n : Z) : string :=
  String (digit (n / 100)) (digits2 n).
Definition digits4 (n : Z) : string :=
  String (digit (n / 1000)) (digits3 n).
Definition digits6 (n : Z) : string :=
  String (digit (n / 100000)) (String (digit (n / 10000)) (digits4 n)).

(** Four digits for the years 0 to 9999, a sign and six digits otherwise. *)
Definition year_string (y : Z) : string :=
  if (0 <=? y) && (y <=? 9999) then digits4 y
  else String (if y <? 0 then "-"%char else "+"%char) (digits6 (Z.abs y)).

(** [new Date(t).toISOString()]; [None] is the [RangeError] thrown for an
    invalid date, that is when [t] is beyond 8.64e15 ms from the epoch. *)
Definition toISOString (t : Z) : option string :=
  if maxTimeValue <? Z.abs t then None
  else Some (year_string (YearFromTime t) +:+ "-" +:+ digits2 (MonthFromTime t)
             +:+ "-" +:+ digits2 (DateFromTime t)
             +:+ "T" +:+ digits2 (HourFromTime t)
             +:+ ":" +:+ digits2 (MinFromTime t)
             +:+ ":" +:+ digits2 (SecFromTime t)
             +:+ "." +:+ digits3 (msFromTime t) +:+ "Z").

(** [s.substr(start, len)] *)
Definition substr (start len : nat) (s : string) : string :=
  String.substring start len s.


(** ** The watch page *)

(** A rendered element: text, or a tag with its [key], [className] and
    children. *)
#[local] Set Warnings "-register-all".
Inductive JSX : Type :=
| JText (s : string)
| JElem (tag : string) (key : option nat) (className : option string)
        (children : list JSX).

(** A value of [searchParams]: [string | string[]]; [undefined] is the
    absence of the key. *)
Inductive ParamValue : Type :=
| PString (s : string)
| PArray (l : list string).

Definition tag_main (children : list JSX) : JSX :=
  JElem "main" None (Some "container mx-auto p-4"%string) children.
Definition tag_h1 (children : list JSX) : JSX :=
  JElem "h1" None (Some "text-2xl font-bold mb-4"%string) children.
Definition tag_p (children : list JSX) : JSX := JElem "p" None None children.

Definition missing_id_page : JSX :=
  tag_main [tag_h1 [JText "Missing Video ID"];
        tag_p [JText "Please provide a video ID in the URL, like: /watch?v=VIDEO_ID"]].

Definition error_page (videoId : string) : JSX :=
  tag_main [tag_h1 [JText "Error"];
        tag_p [JText "Could not fetch transcript for video ID: "; JText videoId;
           JText ". An error occurred during fetching or processing."]].

Definition no_transcript_page (videoId : string) : JSX :=
  tag_main [tag_h1 [JText "No Transcript Available"];
        tag_p [JText "No transcript could be found for video ID: "; JText videoId;
           JText "."];
        tag_p [JText "This might be because the video ID is invalid, the video is private, or it simply doesn't have captions/transcript."]].

(** One row of the transcript: the time label, then the text. *)
Definition entry_row (index : nat) (label entry_text : string) : JSX :=
  JElem "div" (Some index) (Some "p-2 border rounded bg-gray-50"%string)
    [JElem "span" None (Some "text-sm text-gray-500 mr-2"%string) [JText label];
     JElem "span" None None [JText entry_text]].

Definition transcript_page (videoId : string) (rows : list JSX) : JSX :=
  tag_main [tag_h1 [JText "Transcript for Video ID: "; JText videoId];
        JElem "div" None (Some "space-y-2"%string) rows].

(** [new Date(entry.offset).toISOString().substr(14, 5)] *)
Definition time_label (entry_offset : Z) : option string :=
  substr 14 5 <$> toISOString entry_offset.

(** [transcriptData.map((entry, index) => <div key={index}>...</div>)],
    from position [index] on; a [RangeError] of [toISOString] ends the
    rendering. *)
Fixpoint render_entries (index : nat) (entries : list TranscriptEntry)
  : M (list JSX) :=
  match entries with
  | [] => ret []
  | entry :: rest =>
      match time_label (offset entry) with
      | None => throw
      | Some label =>
          let* rows := render_entries (S index) rest in
          ret (entry_row index label (text entry) :: rows)
      end
  end.

(** [WatchPage({ searchParams })] *)
Definition WatchPage (w : World) (searchParams : gmap string ParamValue)
  : M JSX :=
  let videoId := searchParams !! "v"%string in
  match videoId with
  | Some (PString (String c rest)) =>
      let videoId := String c rest in
      let* transcriptData := getTranscript w videoId in
      match transcriptData with
      | None => ret (error_page videoId)
      | Some [] => ret (no_transcript_page videoId)
      | Some (e :: es) =>
          let* rows := render_entries 0 (e :: es) in
          ret (transcript_page videoId rows)
      end
  | _ => ret missing_id_page
  end.


(** The minutes:seconds label of an offset in milliseconds. *)
Definition minutes_seconds (entry_offset : Z) : string :=
  digits2 (MinFromTime entry_offset) +:+ ":" +:+ digits2 (SecFromTime entry_offset).

(** Offsets that fall in a year written with four digits. *)
Definition four_digit_year (entry_offset : Z) : Prop :=
  -62167219200000 <= entry_offset <= 253402300799999.

(** ** Notions used by the statements *)

(** The number of outbound HTTP calls among the events of a run. *)
Fixpoint http_calls (evs : list Event) : nat :=
  match evs with
  | [] => 0%nat
  | EvFetch _ _ _ :: rest => S (http_calls rest)
  | _ :: rest => http_calls rest
  end.

(** A successful JSON response with body [d]: a success status, a JSON
    content type and a body that parses. *)
Definition json_response (r : Response) (d : SupadataTranscriptResponse)
  : Prop :=
  ok r = true /\ is_json (content_type r) = true /\ json_body r = Some d.

(** The remote outcomes that make the resolution fail: a network error, a
    non-success status other than 404, a success response that is not
    JSON, a JSON body that cannot be parsed, and a JSON body whose error
    field is a non-empty string. *)
Inductive failed_fetch : FetchOutcome -> Prop :=
| failed_network : failed_fetch NetworkError
| failed_status r :
    ok r = false -> status r <> 404 -> failed_fetch (Responded r)
| failed_content_type r :
    ok r = true -> is_json (content_type r) = false ->
    failed_fetch (Responded r)
| failed_parse r :
    ok r = true -> is_json (content_type r) = true -> json_body r = None ->
    failed_fetch (Responded r)
| failed_error_field r d :
    json_response r d -> truthy (error d) = true ->
    failed_fetch (Responded r).

(** The same world, with a binding whose [put] rejects or not. *)
Definition with_put_rejects (b : bool) (w : World) : World :=
  mkWorld
    (mkEnv (SUPADATA_API_KEY (env w))
       (option_map (fun kv => mkKV (get_rejects kv) b)
          (TRANSCRIPT_CACHE (env w))))
    (remote w).


(** The rows the specification describes: for each entry, in sequence
    order and numbered from [index], the minutes:seconds label of its offset
    followed by its text. *)
Fixpoint expected_rows (index : nat) (entries : list TranscriptEntry)
  : list JSX :=
  match entries with
  | [] => []
  | entry :: rest =>
      entry_row index (minutes_seconds (offset entry)) (text entry)
      :: expected_rows (S index) rest
  end.

(** ** Scenarios *)

Definition hello : list TranscriptEntry := [mkEntry 0 "Hello"].

Definition kv_ok : KVNamespace := mkKV false false.
Definition kv_unreadable : KVNamespace := mkKV true false.
Definition kv_readonly : KVNamespace := mkKV false true.

(** A world whose provider gives the same answer to every request. *)
Definition world (apiKey : option string) (kv : option KVNamespace)
    (answer : FetchOutcome) : World :=
  mkWorld (mkEnv apiKey kv) (fun _ _ => answer).

Definition json_200 (d : SupadataTranscriptResponse) : FetchOutcome :=
  Responded (mkResponse 200 (Some "application/json"%string) None (Some d)).

Definition not_found_404 : FetchOutcome :=
  Responded (mkResponse 404 (Some "application/json"%string)
               (Some "{}"%string) None).

Definition html_200 : FetchOutcome :=
  Responded (mkResponse 200 (Some "text/html"%string)
               (Some "<html></html>"%string) None).

Definition cached_empty : gmap string CacheEntry :=
  {[ "cachedempty"%string := mkCacheEntry [] (Some 3600) ]}.


Definition v_is (videoId : string) : gmap string ParamValue :=
  {[ "v"%string := PString videoId ]}.

(** ** Notions used by the further properties *)

(** The stage of an invocation an event belongs to: the cache read, the
    fetch, the read of the response body, the cache write. *)
Definition phase (ev : Event) : nat :=
  match ev with
  | EvKvGet _ _ => 0
  | EvFetch _ _ _ => 1
  | EvText _ => 2
  | EvJson _ => 2
  | EvKvPut _ _ _ _ => 3
  end%nat.

(** The two kinds of entry [getTranscript] writes: the empty sequence with
    the 3600 second expiration, a transcript without expiration. *)
Definition entry_wf (e : CacheEntry) : Prop :=
  match cached_value e with
  | [] => expirationTtl e = Some 3600
  | _ :: _ => expirationTtl e = None
  end.

(** The same world without a [TRANSCRIPT_CACHE] binding. *)
Definition without_cache (w : World) : World :=
  mkWorld (mkEnv (SUPADATA_API_KEY (env w)) None) (remote w).

(** The value of a hexadecimal digit, 16 for any other character. *)
Definition hex_value (c : ascii) : N :=
  match c with
  | "0" => 0 | "1" => 1 | "2" => 2 | "3" => 3 | "4" => 4
  | "5" => 5 | "6" => 6 | "7" => 7 | "8" => 8 | "9" => 9
  | "A" => 10 | "B" => 11 | "C" => 12 | "D" => 13 | "E" => 14
  | "F" => 15
  | _ => 16
  end%char%N.

(** The [key] of a rendered element. *)
Definition row_key (j : JSX) : option nat :=
  match j with
  | JText _ => None
  | JElem _ key _ _ => key
  end.


(** * Properties *)

(** ** The date model *)

(** The offsets of [four_digit_year] are the instants of the years 0 to
    9999. *)
Lemma year_four_digits t :
  four_digit_year t <-> 0 <= YearFromTime t <= 9999.
Proof.
  unfold four_digit_year, YearFromTime, civil_from_days, Day, msPerDay.
  cbn [fst snd].
  assert (Hd : -62167219200000 <= t <= 253402300799999
               <-> -60 <= t / 86400000 + 719468 <= 3652364).
  { Z.to_euclidean_division_equations; lia. }
  rewrite Hd. clear Hd.
  set (z := t / 86400000 + 719468). clearbody z. clear t.
  destruct (_ <=? 2) eqn:Hm; destruct (_ <? 10) eqn:Hmp in Hm;
    split; intros Hz;
    Z.to_euclidean_division_equations; lia.
Qed.

Lemma time_label_four_digit_year t :
  four_digit_year t -> time_label t = Some (minutes_seconds t).
Proof.
  intros Ht. pose proof (proj1 (year_four_digits t) Ht) as Hy.
  unfold four_digit_year in Ht.
  unfold time_label, toISOString, year_string, maxTimeValue.
  replace (8640000000000000 <? Z.abs t) with false
    by (symmetry; apply Z.ltb_ge; lia).
  replace ((0 <=? YearFromTime t) && (YearFromTime t <=? 9999)) with true
    by (symmetry; apply andb_true_iff; split; apply Z.leb_le; lia).
  reflexivity.
Qed.

(** ** Running [getTranscript] *)

Lemma content_type_test contentType :
  negb (truthy contentType) || negb (is_json contentType)
  = negb (is_json contentType).
Proof. destruct contentType as [[|c ct]|]; reflexivity. Qed.

#[local] Arguments truthy : simpl never.
#[local] Arguments is_json : simpl never.
#[local] Arguments ok : simpl never.
#[local] Arguments apiUrl : simpl never.
#[local] Arguments requestHeaders : simpl never.

Ltac unfold_run :=
  unfold getTranscript, getTranscriptCacheKV, check_cache, fetch_and_store,
    cache_put, bind, try_catch, ret, throw, kv_get, kv_put, fetch,
    response_text, response_json, result, final_store, events in *.

Ltac run_cases :=
  unfold_run; cbn [fst snd] in *;
  rewrite ?content_type_test in *;
  repeat (case_match; simplify_eq/=);
  cbn [fst snd] in *.

Ltac bool_norm :=
  repeat match goal with
  | H : negb _ = true |- _ => apply negb_true_iff in H
  | H : negb _ = false |- _ => apply negb_false_iff in H
  | H : negb (truthy ?c) || negb (is_json ?c) = _ |- _ =>
      rewrite (content_type_test c) in H
  | H : (_ =? _) = true |- _ => apply Z.eqb_eq in H
  | H : (_ =? _) = false |- _ => apply Z.eqb_neq in H
  end.

Ltac split_hyps :=
  repeat (destruct_or?; destruct_and?; simplify_eq;
          repeat match goal with H : exists _, _ |- _ => destruct H end).

Lemma status_404_not_ok r : status r = 404 -> ok r = false.
Proof. unfold ok. intros ->. reflexivity. Qed.


Lemma failure_leaves_cache w videoId s :
  result (getTranscript w videoId s) = Return None ->
  final_store (getTranscript w videoId s) = s /\
  forall key v ttl stored,
    ~ In (EvKvPut key v ttl stored) (events (getTranscript w videoId s)).
Proof.
  run_cases; intros Hr; simplify_eq; split; try reflexivity;
    intros key v ttl stored Hin; simpl in Hin; intuition congruence.
Qed.

Lemma write_is_result w videoId s key v ttl stored :
  In (EvKvPut key v ttl stored) (events (getTranscript w videoId s)) ->
  key = videoId /\ result (getTranscript w videoId s) = Return (Some v)
  /\ (v = [] /\ ttl = Some 3600 \/ v <> [] /\ ttl = None).
Proof.
  run_cases; intros Hin; simpl in Hin; intuition (simplify_eq; auto).
Qed.

(** What the fetch returns depends on the provider only, not on the cache
    binding or on the contents of the cache. *)
Lemma fetch_result_ignores_cache w w' kv kv' apiKey videoId s s' :
  remote w = remote w' ->
  result (try_catch (fetch_and_store w kv apiKey videoId) (ret None) s)
  = result (try_catch (fetch_and_store w' kv' apiKey videoId) (ret None) s').
Proof.
  intros Hremote. unfold fetch_and_store, fetch. rewrite <- Hremote.
  run_cases; congruence.
Qed.

Lemma getTranscript_result_congruence w w' videoId s s' :
  SUPADATA_API_KEY (env w) = SUPADATA_API_KEY (env w') ->
  remote w = remote w' ->
  result (check_cache (TRANSCRIPT_CACHE (env w)) videoId s)
  = result (check_cache (TRANSCRIPT_CACHE (env w')) videoId s') ->
  result (getTranscript w videoId s) = result (getTranscript w' videoId s').
Proof.
  intros Hkey Hremote Hcache.
  unfold getTranscript, getTranscriptCacheKV. rewrite <- Hkey.
  destruct (SUPADATA_API_KEY (env w)) as [[|c key]|]; try reflexivity.
  pose proof (fetch_result_ignores_cache w w' (TRANSCRIPT_CACHE (env w))
                (TRANSCRIPT_CACHE (env w')) (String c key) videoId) as Hfetch.
  unfold bind.
  destruct (check_cache (TRANSCRIPT_CACHE (env w)) videoId s)
    as [[o1 s1] t1].
  destruct (check_cache (TRANSCRIPT_CACHE (env w')) videoId s')
    as [[o2 s2] t2].
  unfold result in Hcache; cbn [fst snd] in Hcache. subst o2.
  destruct o1 as [[v|]|]; try reflexivity.
  specialize (Hfetch s1 s2 Hremote). unfold result in *.
  destruct (try_catch _ _ s1) as [[o3 s3] t3].
  destruct (try_catch _ _ s2) as [[o4 s4] t4].
  cbn [fst snd] in *. congruence.
Qed.


(** ** The scenarios of the specification *)

(** The four scenarios of the specification. *)
Example scenario_abc123 :
  getTranscript (world (Some "key"%string) (Some kv_ok)
                   (json_200 (mkData (Some hello) None))) "abc123" ∅
  = (Return (Some hello),
     {[ "abc123"%string := mkCacheEntry hello None ]},
     [EvKvGet "abc123" GetNull;
      EvFetch "https://api.supadata.ai/v1/youtube/transcript?videoId=abc123"
        [("X-API-Key", "key"); ("Accept", "application/json")]%string
        (json_200 (mkData (Some hello) None));
      EvJson true;
      EvKvPut "abc123" hello None true]).
Proof. reflexivity. Qed.

Example scenario_missing1 :
  getTranscript (world (Some "key"%string) (Some kv_ok) not_found_404)
    "missing1" ∅
  = (Return (Some []),
     {[ "missing1"%string := mkCacheEntry [] (Some 3600) ]},
     [EvKvGet "missing1" GetNull;
      EvFetch "https://api.supadata.ai/v1/youtube/transcript?videoId=missing1"
        [("X-API-Key", "key"); ("Accept", "application/json")]%string
        not_found_404;
      EvText true;
      EvKvPut "missing1" [] (Some 3600) true]).
Proof. reflexivity. Qed.

Example scenario_badjson :
  getTranscript (world (Some "key"%string) (Some kv_ok) html_200) "badjson" ∅
  = (Return None, ∅,
     [EvKvGet "badjson" GetNull;
      EvFetch "https://api.supadata.ai/v1/youtube/transcript?videoId=badjson"
        [("X-API-Key", "key"); ("Accept", "application/json")]%string
        html_200;
      EvText true]).
Proof. reflexivity. Qed.

Example scenario_cachedempty :
  getTranscript (world (Some "key"%string) (Some kv_ok) NetworkError)
    "cachedempty" cached_empty
  = (Return (Some []), cached_empty,
     [EvKvGet "cachedempty" (GetValue [])]).
Proof. reflexivity. Qed.

Example encodeURIComponent_escapes :
  encodeURIComponent "a b/c&d=e" = "a%20b%2Fc%26d%3De"%string.
Proof. reflexivity. Qed.

(** ** The cache hit *)

(** C1, as stated, fails: the credential check comes before the cache
    lookup, so without [SUPADATA_API_KEY] a cached value is not returned;
    and when the read of the cache throws, the value it holds is not seen
    and the provider is called. *)
Lemma cached_value_not_returned :
  (TRANSCRIPT_CACHE (env (world None (Some kv_ok) NetworkError)) = Some kv_ok
   /\ cached_empty !! "cachedempty"%string = Some (mkCacheEntry [] (Some 3600))
   /\ result (getTranscript (world None (Some kv_ok) NetworkError)
                "cachedempty" cached_empty) = Return None)
  /\
  (cached_empty !! "cachedempty"%string = Some (mkCacheEntry [] (Some 3600))
   /\ result (getTranscript
                (world (Some "key"%string) (Some kv_unreadable)
                   (json_200 (mkData (Some hello) None)))
                "cachedempty" cached_empty) = Return (Some hello)
   /\ http_calls (events (getTranscript
                (world (Some "key"%string) (Some kv_unreadable)
                   (json_200 (mkData (Some hello) None)))
                "cachedempty" cached_empty)) = 1%nat).
Proof. repeat split; reflexivity. Qed.

(** C1 (amended): when the API credential is configured and the cache
    read does not throw, a video identifier for which the cache holds a
    value (an empty sequence included) gets that value back; the cache
    read is the only effect, so no HTTP call is made and the cache is
    left as it was. *)
Theorem cache_hit_returns_cached w videoId s kv e :
  truthy (SUPADATA_API_KEY (env w)) = true ->
  TRANSCRIPT_CACHE (env w) = Some kv ->
  get_rejects kv = false ->
  s !! videoId = Some e ->
  getTranscript w videoId s
  = (Return (Some (cached_value e)), s,
     [EvKvGet videoId (GetValue (cached_value e))])
  /\ http_calls (events (getTranscript w videoId s)) = 0%nat.
Proof.
  intros Hkey Hkv Hget Hs.
  assert (Hrun : getTranscript w videoId s
                 = (Return (Some (cached_value e)), s,
                    [EvKvGet videoId (GetValue (cached_value e))])).
  { unfold getTranscript, getTranscriptCacheKV, check_cache, bind, try_catch,
      kv_get, ret.
    destruct (SUPADATA_API_KEY (env w)) as [[|c key]|]; try discriminate.
    rewrite Hkv, Hget, Hs. reflexivity. }
  rewrite Hrun. split; reflexivity.
Qed.

Lemma cache_hit_returns_cached_witness :
  getTranscript (world (Some "key"%string) (Some kv_ok) NetworkError)
    "cachedempty" cached_empty
  = (Return (Some []), cached_empty, [EvKvGet "cachedempty" (GetValue [])])
  /\ http_calls (events (getTranscript
                   (world (Some "key"%string) (Some kv_ok) NetworkError)
                   "cachedempty" cached_empty)) = 0%nat.
Proof.
  apply (cache_hit_returns_cached
           (world (Some "key"%string) (Some kv_ok) NetworkError)
           "cachedempty" cached_empty kv_ok (mkCacheEntry [] (Some 3600)));
    reflexivity.
Defined.

(** ** The credential *)

(** C2: when the API credential is not configured ([SUPADATA_API_KEY] unset
    or empty), [getTranscript] returns the failure marker and performs no
    effect at all, in particular no outbound HTTP call. *)
Theorem missing_credential_fails w videoId s :
  truthy (SUPADATA_API_KEY (env w)) = false ->
  getTranscript w videoId s = (Return None, s, [])
  /\ http_calls (events (getTranscript w videoId s)) = 0%nat.
Proof.
  intros Hkey.
  assert (Hrun : getTranscript w videoId s = (Return None, s, [])).
  { unfold getTranscript.
    destruct (SUPADATA_API_KEY (env w)) as [[|c key]|];
      try discriminate; reflexivity. }
  rewrite Hrun. split; reflexivity.
Qed.

Lemma missing_credential_fails_witness :
  getTranscript (world None (Some kv_ok) (json_200 (mkData (Some hello) None)))
    "abc123" ∅ = (Return None, ∅, [])
  /\ http_calls (events (getTranscript
       (world None (Some kv_ok) (json_200 (mkData (Some hello) None)))
       "abc123" ∅)) = 0%nat.
Proof.
  apply (missing_credential_fails
           (world None (Some kv_ok) (json_200 (mkData (Some hello) None)))
           "abc123" ∅).
  reflexivity.
Defined.

(** ** Confirmed absence *)

(** C3, as stated, fails: a successful JSON response without a transcript
    field that carries an error message is a failure, and nothing is
    written; so is a 404 whose body cannot be read; and after a 404 whose
    cache write throws the cache does not hold the empty sequence. *)
Lemma absent_transcript_not_cached :
  (In (EvKvGet "abc123" GetNull)
      (events (getTranscript
         (world (Some "key"%string) (Some kv_ok)
            (json_200 (mkData None (Some "quota exceeded"%string))))
         "abc123" ∅))
   /\ json_response
        (mkResponse 200 (Some "application/json"%string) None
           (Some (mkData None (Some "quota exceeded"%string))))
        (mkData None (Some "quota exceeded"%string))
   /\ getTranscript
         (world (Some "key"%string) (Some kv_ok)
            (json_200 (mkData None (Some "quota exceeded"%string))))
         "abc123" ∅
      = (Return None, ∅,
         [EvKvGet "abc123" GetNull;
          EvFetch (apiUrl "abc123") (requestHeaders "key")
            (json_200 (mkData None (Some "quota exceeded"%string)));
          EvJson true]))
  /\
  getTranscript
    (world (Some "key"%string) (Some kv_ok)
       (Responded (mkResponse 404 None None None)))
    "missing1" ∅
  = (Return None, ∅,
     [EvKvGet "missing1" GetNull;
      EvFetch (apiUrl "missing1") (requestHeaders "key")
        (Responded (mkResponse 404 None None None));
      EvText false])
  /\
  getTranscript
    (world (Some "key"%string) (Some kv_readonly) not_found_404)
    "missing1" ∅
  = (Return (Some []), ∅,
     [EvKvGet "missing1" GetNull;
      EvFetch (apiUrl "missing1") (requestHeaders "key") not_found_404;
      EvText true;
      EvKvPut "missing1" [] (Some 3600) false]).
Proof. repeat split; vm_compute; auto. Qed.

(** C3 (amended): on a cache miss, for every remote response that is an
    HTTP 404 whose body can be read, or a successful JSON response without
    a non-empty error field whose transcript field is absent or an empty
    sequence, [getTranscript] returns an empty sequence and issues one
    cache write of the empty sequence under the video identifier with an
    expiration of 3600 seconds; the cache holds that entry afterwards
    unless the write itself throws. *)
Theorem confirmed_absence_is_cached w videoId s url hdrs r :
  In (EvKvGet videoId GetNull) (events (getTranscript w videoId s)) ->
  In (EvFetch url hdrs (Responded r)) (events (getTranscript w videoId s)) ->
  (status r = 404 /\ text_body r <> None)
  \/ (exists d, json_response r d /\ truthy (error d) = false
                /\ (transcript d = None \/ transcript d = Some [])) ->
  result (getTranscript w videoId s) = Return (Some [])
  /\ exists stored,
       In (EvKvPut videoId [] (Some 3600) stored)
          (events (getTranscript w videoId s))
       /\ final_store (getTranscript w videoId s)
          = if stored then <[videoId := mkCacheEntry [] (Some 3600)]> s
            else s.
Proof.
  intros Hmiss Hfetch Hresp.
  pose proof (status_404_not_ok r) as Hok.
  unfold json_response in Hresp.
  run_cases; simpl in Hmiss, Hfetch; split_hyps; bool_norm.
  all: try congruence.
  all: try (specialize (Hok ltac:(assumption)); congruence).
  all: try (split; [reflexivity|]; eexists; split; [simpl; eauto 10 | reflexivity]).
Qed.

Lemma confirmed_absence_is_cached_witness :
  result (getTranscript (world (Some "key"%string) (Some kv_ok) not_found_404)
            "missing1" ∅) = Return (Some [])
  /\ exists stored,
       In (EvKvPut "missing1" [] (Some 3600) stored)
          (events (getTranscript
                     (world (Some "key"%string) (Some kv_ok) not_found_404)
                     "missing1" ∅))
       /\ final_store (getTranscript
                         (world (Some "key"%string) (Some kv_ok) not_found_404)
                         "missing1" ∅)
          = if stored
            then <["missing1"%string := mkCacheEntry [] (Some 3600)]> ∅
            else ∅.
Proof.
  apply (confirmed_absence_is_cached
           (world (Some "key"%string) (Some kv_ok) not_found_404)
           "missing1" ∅ (apiUrl "missing1") (requestHeaders "key")
           (mkResponse 404 (Some "application/json"%string)
              (Some "{}"%string) None)).
  - vm_compute. auto.
  - vm_compute. auto.
  - left. split; [reflexivity | discriminate].
Defined.

(** ** Failures of the provider *)

(** C4, as stated, fails: a success JSON body that contains an error field
    holding the empty string is not a failure; the transcript next to it is
    returned and written to the cache. *)
Lemma empty_error_field_is_ignored :
  In (EvKvGet "abc123" GetNull)
     (events (getTranscript
        (world (Some "key"%string) (Some kv_ok)
           (json_200 (mkData (Some hello) (Some ""%string))))
        "abc123" ∅))
  /\ json_response
       (mkResponse 200 (Some "application/json"%string) None
          (Some (mkData (Some hello) (Some ""%string))))
       (mkData (Some hello) (Some ""%string))
  /\ error (mkData (Some hello) (Some ""%string)) = Some ""%string
  /\ getTranscript
        (world (Some "key"%string) (Some kv_ok)
           (json_200 (mkData (Some hello) (Some ""%string))))
        "abc123" ∅
     = (Return (Some hello),
        {[ "abc123"%string := mkCacheEntry hello None ]},
        [EvKvGet "abc123" GetNull;
         EvFetch (apiUrl "abc123") (requestHeaders "key")
           (json_200 (mkData (Some hello) (Some ""%string)));
         EvJson true;
         EvKvPut "abc123" hello None true]).
Proof. repeat split; vm_compute; auto. Qed.

(** C4 (amended): on a cache miss, for every remote outcome that is a
    non-success HTTP status other than 404, a success response whose
    content type is not JSON, a success JSON body whose error field is a
    non-empty string, or a network-level or JSON-parsing exception,
    [getTranscript] returns the failure marker; and on every failure
    return no cache write is performed and the cache is unchanged. *)
Theorem provider_failure_fails w videoId s :
  (forall url hdrs o,
     In (EvKvGet videoId GetNull) (events (getTranscript w videoId s)) ->
     In (EvFetch url hdrs o) (events (getTranscript w videoId s)) ->
     failed_fetch o ->
     result (getTranscript w videoId s) = Return None)
  /\ (result (getTranscript w videoId s) = Return None ->
      final_store (getTranscript w videoId s) = s
      /\ forall key v ttl stored,
           ~ In (EvKvPut key v ttl stored)
                (events (getTranscript w videoId s))).
Proof.
  split; [|apply failure_leaves_cache].
  intros url hdrs o Hmiss Hfetch Hfail.
  destruct Hfail as [|r Hok H404|r Hok Hct|r Hok Hct Hbody|r d (Hok & Hct & Hbody) Herr];
    run_cases; simpl in Hmiss, Hfetch; split_hyps; bool_norm;
    congruence.
Qed.

Lemma provider_failure_fails_witness :
  result (getTranscript (world (Some "key"%string) (Some kv_ok) html_200)
            "badjson" ∅) = Return None
  /\ final_store (getTranscript
                    (world (Some "key"%string) (Some kv_ok) html_200)
                    "badjson" ∅) = ∅.
Proof.
  pose proof (provider_failure_fails
                (world (Some "key"%string) (Some kv_ok) html_200)
                "badjson" ∅) as [Hfail Hkeep].
  assert (Hr : result (getTranscript
                         (world (Some "key"%string) (Some kv_ok) html_200)
                         "badjson" ∅) = Return None).
  { apply (Hfail (apiUrl "badjson") (requestHeaders "key") html_200).
    - vm_compute. auto.
    - vm_compute. auto.
    - apply failed_content_type; reflexivity. }
  split; [exact Hr | exact (proj1 (Hkeep Hr))].
Defined.

(** ** A transcript from the provider *)

(** C5, as stated, fails: a successful JSON response with a non-empty
    transcript field and an error message is a failure, nothing is
    returned or written; and after a cache write that throws the cache
    does not hold the transcript. *)
Lemma transcript_with_error_not_returned :
  In (EvKvGet "abc123" GetNull)
     (events (getTranscript
        (world (Some "key"%string) (Some kv_ok)
           (json_200 (mkData (Some hello) (Some "partial"%string))))
        "abc123" ∅))
  /\ json_response
       (mkResponse 200 (Some "application/json"%string) None
          (Some (mkData (Some hello) (Some "partial"%string))))
       (mkData (Some hello) (Some "partial"%string))
  /\ getTranscript
        (world (Some "key"%string) (Some kv_ok)
           (json_200 (mkData (Some hello) (Some "partial"%string))))
        "abc123" ∅
     = (Return None, ∅,
        [EvKvGet "abc123" GetNull;
         EvFetch (apiUrl "abc123") (requestHeaders "key")
           (json_200 (mkData (Some hello) (Some "partial"%string)));
         EvJson true])
  /\ getTranscript
        (world (Some "key"%string) (Some kv_readonly)
           (json_200 (mkData (Some hello) None)))
        "abc123" ∅
     = (Return (Some hello), ∅,
        [EvKvGet "abc123" GetNull;
         EvFetch (apiUrl "abc123") (requestHeaders "key")
           (json_200 (mkData (Some hello) None));
         EvJson true;
         EvKvPut "abc123" hello None false]).
Proof. repeat split; vm_compute; auto. Qed.

(** C5 (amended): on a cache miss, for every successful JSON response
    without a non-empty error field whose transcript field is a non-empty
    sequence, [getTranscript] returns that sequence unchanged and issues
    one cache write of the same sequence under the video identifier with
    no expiration; the cache holds that entry afterwards unless the write
    itself throws. *)
Theorem transcript_is_returned_and_cached w videoId s url hdrs r d l :
  In (EvKvGet videoId GetNull) (events (getTranscript w videoId s)) ->
  In (EvFetch url hdrs (Responded r)) (events (getTranscript w videoId s)) ->
  json_response r d ->
  truthy (error d) = false ->
  transcript d = Some l ->
  l <> [] ->
  result (getTranscript w videoId s) = Return (Some l)
  /\ exists stored,
       In (EvKvPut videoId l None stored)
          (events (getTranscript w videoId s))
       /\ final_store (getTranscript w videoId s)
          = if stored then <[videoId := mkCacheEntry l None]> s else s.
Proof.
  intros Hmiss Hfetch (Hok & Hct & Hbody) Herr Ht Hl.
  run_cases; simpl in Hmiss, Hfetch; split_hyps; bool_norm.
  all: try congruence.
  all: try (split; [reflexivity|]; eexists; split; [simpl; eauto 10 | reflexivity]).
Qed.

Lemma transcript_is_returned_and_cached_witness :
  result (getTranscript
            (world (Some "key"%string) (Some kv_ok)
               (json_200 (mkData (Some hello) None)))
            "abc123" ∅) = Return (Some hello)
  /\ exists stored,
       In (EvKvPut "abc123" hello None stored)
          (events (getTranscript
                     (world (Some "key"%string) (Some kv_ok)
                        (json_200 (mkData (Some hello) None)))
                     "abc123" ∅))
       /\ final_store (getTranscript
                         (world (Some "key"%string) (Some kv_ok)
                            (json_200 (mkData (Some hello) None)))
                         "abc123" ∅)
          = if stored then <["abc123"%string := mkCacheEntry hello None]> ∅
            else ∅.
Proof.
  apply (transcript_is_returned_and_cached
           (world (Some "key"%string) (Some kv_ok)
              (json_200 (mkData (Some hello) None)))
           "abc123" ∅ (apiUrl "abc123") (requestHeaders "key")
           (mkResponse 200 (Some "application/json"%string) None
              (Some (mkData (Some hello) None)))
           (mkData (Some hello) None) hello).
  - vm_compute. auto.
  - vm_compute. auto.
  - repeat split; reflexivity.
  - reflexivity.
  - reflexivity.
  - discriminate.
Defined.

(** ** Failures of the cache *)

(** C6: when the fetch succeeds with a non-empty transcript and the cache
    write that follows throws, [getTranscript] still returns the fetched
    sequence; more generally a cache write that throws, in any branch,
    leaves the value being written as the result, and the result of an
    invocation does not depend on whether cache writes throw. *)
Theorem cache_write_failure_is_swallowed w videoId s :
  (forall l,
     l <> [] ->
     In (EvKvPut videoId l None false) (events (getTranscript w videoId s)) ->
     result (getTranscript w videoId s) = Return (Some l)
     /\ exists url hdrs r d,
          In (EvFetch url hdrs (Responded r))
             (events (getTranscript w videoId s))
          /\ json_response r d /\ transcript d = Some l)
  /\ (forall key v ttl,
        In (EvKvPut key v ttl false) (events (getTranscript w videoId s)) ->
        result (getTranscript w videoId s) = Return (Some v))
  /\ (forall b,
        result (getTranscript (with_put_rejects b w) videoId s)
        = result (getTranscript w videoId s)).
Proof.
  split; [|split].
  - intros l Hl Hput. unfold json_response.
    run_cases; simpl in Hput; split_hyps; bool_norm; try congruence.
    all: split; [reflexivity|].
    all: do 4 eexists; split; [simpl; eauto|]; eauto.
  - intros key v ttl Hput.
    apply write_is_result in Hput. tauto.
  - intros b. apply getTranscript_result_congruence; try reflexivity.
    cbn [with_put_rejects env TRANSCRIPT_CACHE].
    destruct (TRANSCRIPT_CACHE (env w)) as [kv|]; [|reflexivity].
    unfold check_cache, try_catch, kv_get, result; cbn [option_map get_rejects].
    destruct (get_rejects kv); [reflexivity|].
    destruct (s !! videoId); reflexivity.
Qed.

Lemma cache_write_failure_is_swallowed_witness :
  result (getTranscript
            (world (Some "key"%string) (Some kv_readonly)
               (json_200 (mkData (Some hello) None)))
            "abc123" ∅) = Return (Some hello).
Proof.
  refine (proj1 (proj1 (cache_write_failure_is_swallowed
            (world (Some "key"%string) (Some kv_readonly)
               (json_200 (mkData (Some hello) None)))
            "abc123" ∅) hello _ _)).
  - discriminate.
  - vm_compute. auto 6.
Defined.



(** ** Cache writes and results *)

(** C9: every cache write of an invocation is made under the video
    identifier and writes the value the invocation returns: the empty
    sequence (with the 3600 second expiration) only when the empty sequence
    is returned, a transcript (without expiration) only when that same
    transcript is returned; and an invocation that returns the failure
    marker performs no write and leaves the cache unchanged. *)
Theorem cache_write_matches_result w videoId s :
  (forall key v ttl stored,
     In (EvKvPut key v ttl stored) (events (getTranscript w videoId s)) ->
     key = videoId
     /\ result (getTranscript w videoId s) = Return (Some v)
     /\ (v = [] /\ ttl = Some 3600 \/ v <> [] /\ ttl = None))
  /\ (result (getTranscript w videoId s) = Return None ->
      final_store (getTranscript w videoId s) = s
      /\ forall key v ttl stored,
           ~ In (EvKvPut key v ttl stored)
                (events (getTranscript w videoId s))).
Proof.
  split.
  - intros key v ttl stored. apply write_is_result.
  - apply failure_leaves_cache.
Qed.

Lemma cache_write_matches_result_witness :
  result (getTranscript
            (world (Some "key"%string) (Some kv_ok) not_found_404)
            "missing1" ∅) = Return (Some [])
  /\ final_store (getTranscript
                    (world (Some "key"%string) (Some kv_ok) html_200)
                    "badjson" ∅) = ∅.
Proof.
  split.
  - refine (proj1 (proj2 (proj1 (cache_write_matches_result
              (world (Some "key"%string) (Some kv_ok) not_found_404)
              "missing1" ∅) "missing1"%string [] (Some 3600) true _))).
    vm_compute. auto 6.
  - apply (proj2 (cache_write_matches_result
                    (world (Some "key"%string) (Some kv_ok) html_200)
                    "badjson" ∅)).
    reflexivity.
Defined.

(** ** The content type *)

(** C10: a successful response without a content-type header makes
    [getTranscript] return the failure marker, whatever its body; the body
    of a response is parsed as JSON exactly when the status is a success
    and the content-type header value contains [application/json], which
    holds for [application/json; charset=utf-8]. *)
Theorem body_parsed_only_if_json w videoId s url hdrs r :
  In (EvFetch url hdrs (Responded r)) (events (getTranscript w videoId s)) ->
  (ok r = true -> content_type r = None ->
   result (getTranscript w videoId s) = Return None)
  /\ ((exists parsed, In (EvJson parsed) (events (getTranscript w videoId s)))
      <-> ok r = true
          /\ exists ct, content_type r = Some ct
                        /\ includes "application/json" ct = true)
  /\ (ok r = true ->
      content_type r = Some "application/json; charset=utf-8"%string ->
      exists parsed, In (EvJson parsed) (events (getTranscript w videoId s))).
Proof.
  intros Hfetch.
  assert (Hjson : is_json (content_type r) = true
                  <-> exists ct, content_type r = Some ct
                                 /\ includes "application/json" ct = true).
  { unfold is_json. destruct (content_type r) as [ct|].
    - split; [eauto|]. intros (ct' & Heq & Hinc). congruence.
    - split; [discriminate|]. intros (ct' & Heq & _). discriminate. }
  assert (Hparsed : (exists parsed,
                       In (EvJson parsed) (events (getTranscript w videoId s)))
                    <-> ok r = true /\ is_json (content_type r) = true).
  { clear Hjson.
    run_cases; simpl in Hfetch; split_hyps; bool_norm;
      (split;
       [ intros [parsed Hin]; simpl in Hin; split_hyps; auto; congruence
       | intros [Hok Hct]; try congruence; eexists; simpl; eauto ]). }
  split; [|split].
  - intros Hok Hct.
    clear Hjson Hparsed.
    run_cases; simpl in Hfetch; split_hyps; bool_norm;
      try reflexivity; try congruence;
      match goal with
      | Hc : content_type _ = None, Hj : is_json (content_type _) = true |- _ =>
          rewrite Hc in Hj; discriminate
      end.
  - rewrite Hparsed, Hjson. reflexivity.
  - intros Hok Hct. apply Hparsed. split; [exact Hok|].
    rewrite Hct. reflexivity.
Qed.

Lemma body_parsed_only_if_json_witness :
  result (getTranscript
            (world (Some "key"%string) (Some kv_ok)
               (Responded (mkResponse 200 None (Some "{}"%string)
                             (Some (mkData (Some hello) None)))))
            "abc123" ∅) = Return None.
Proof.
  refine (proj1 (body_parsed_only_if_json
            (world (Some "key"%string) (Some kv_ok)
               (Responded (mkResponse 200 None (Some "{}"%string)
                             (Some (mkData (Some hello) None)))))
            "abc123" ∅ (apiUrl "abc123") (requestHeaders "key")
            (mkResponse 200 None (Some "{}"%string)
               (Some (mkData (Some hello) None))) _) _ _).
  - vm_compute. auto.
  - reflexivity.
  - reflexivity.
Defined.

(** ** The watch page *)








(** * Further properties of the code *)

(** ** What an invocation does to the cache *)

(** An invocation leaves the cache as it was, or sets the entry of the
    video identifier to the value it returns, in one of the two forms of
    [entry_wf]. *)
Lemma store_change w videoId s :
  final_store (getTranscript w videoId s) = s
  \/ exists e,
       final_store (getTranscript w videoId s) = <[videoId := e]> s
       /\ entry_wf e
       /\ result (getTranscript w videoId s) = Return (Some (cached_value e)).
Proof.
  run_cases; first [ left; reflexivity | right; eexists; split; [reflexivity|];
                     split; reflexivity ].
Qed.


(** X1: an invocation changes the cache at most under the video
    identifier: every other key keeps its entry, and no key loses its
    entry. *)
Theorem other_keys_untouched w videoId s :
  (forall key, key <> videoId ->
     final_store (getTranscript w videoId s) !! key = s !! key)
  /\ (forall key, is_Some (s !! key) ->
        is_Some (final_store (getTranscript w videoId s) !! key)).
Proof.
  destruct (store_change w videoId s) as [->|(e & -> & _ & _)].
  - split; auto.
  - split.
    + intros key Hne. apply lookup_insert_ne. congruence.
    + intros key Hsome. destruct (decide (key = videoId)) as [->|Hne].
      * rewrite lookup_insert_eq. eauto.
      * rewrite lookup_insert_ne by congruence. exact Hsome.
Qed.

Lemma other_keys_untouched_witness :
  final_store (getTranscript
                 (world (Some "key"%string) (Some kv_ok)
                    (json_200 (mkData (Some hello) None)))
                 "abc123" cached_empty) !! "cachedempty"%string
  = cached_empty !! "cachedempty"%string.
Proof.
  apply (proj1 (other_keys_untouched
                  (world (Some "key"%string) (Some kv_ok)
                     (json_200 (mkData (Some hello) None)))
                  "abc123" cached_empty)).
  discriminate.
Defined.

(** X2: if every entry of the cache is an empty sequence with the 3600
    second expiration or a non-empty transcript without expiration, the
    same holds after an invocation. *)
Theorem cache_entries_stay_well_formed w videoId s :
  map_Forall (fun _ e => entry_wf e) s ->
  map_Forall (fun _ e => entry_wf e)
    (final_store (getTranscript w videoId s)).
Proof.
  intros Hwf.
  destruct (store_change w videoId s) as [->|(e & -> & He & _)].
  - exact Hwf.
  - apply map_Forall_insert_2; assumption.
Qed.

Lemma cache_entries_stay_well_formed_witness :
  map_Forall (fun _ e => entry_wf e)
    (final_store (getTranscript
                    (world (Some "key"%string) (Some kv_ok)
                       (json_200 (mkData (Some hello) None)))
                    "abc123" cached_empty)).
Proof.
  apply (cache_entries_stay_well_formed
           (world (Some "key"%string) (Some kv_ok)
              (json_200 (mkData (Some hello) None)))
           "abc123" cached_empty).
  apply map_Forall_singleton. reflexivity.
Defined.





(** X5: a binding whose [get] and [put] both reject (as a plain string
    taken from [process.env] does) behaves as a disabled cache: the
    invocation returns what it returns without binding and the cache is
    unchanged. *)
Theorem broken_binding_is_no_cache w videoId s kv :
  TRANSCRIPT_CACHE (env w) = Some kv ->
  get_rejects kv = true ->
  put_rejects kv = true ->
  result (getTranscript w videoId s)
  = result (getTranscript (without_cache w) videoId s)
  /\ final_store (getTranscript w videoId s) = s.
Proof.
  intros Hkv Hget Hput. split.
  - apply getTranscript_result_congruence; try reflexivity.
    rewrite Hkv. cbn [without_cache env TRANSCRIPT_CACHE].
    unfold check_cache, try_catch, kv_get, result. rewrite Hget. reflexivity.
  - unfold getTranscript, getTranscriptCacheKV. rewrite Hkv.
    run_cases; reflexivity.
Qed.

Lemma broken_binding_is_no_cache_witness :
  result (getTranscript
            (world (Some "key"%string) (Some (mkKV true true)) not_found_404)
            "missing1" cached_empty)
  = result (getTranscript
              (without_cache
                 (world (Some "key"%string) (Some (mkKV true true))
                    not_found_404))
              "missing1" cached_empty)
  /\ final_store (getTranscript
                    (world (Some "key"%string) (Some (mkKV true true))
                       not_found_404)
                    "missing1" cached_empty) = cached_empty.
Proof.
  apply (broken_binding_is_no_cache
           (world (Some "key"%string) (Some (mkKV true true)) not_found_404)
           "missing1" cached_empty (mkKV true true)); reflexivity.
Defined.

(** ** The course of an invocation *)

(** X6: the events of an invocation come in the order cache read, fetch,
    read of the response body, cache write, each at most once (so the
    provider is never called twice and a body is never read twice); and
    the body is read and the cache written only after a fetch. *)
Theorem events_in_order w videoId s :
  StronglySorted lt (map phase (events (getTranscript w videoId s)))
  /\ (forall ev, In ev (events (getTranscript w videoId s)) ->
        phase ev <> 0%nat ->
        http_calls (events (getTranscript w videoId s)) = 1%nat).
Proof.
  run_cases; (split; [simpl; repeat constructor|]);
    intros ev Hin Hph; simpl in Hin; split_hyps; simpl in *;
    congruence.
Qed.


(** X8: every request goes to the transcript endpoint with the encoded
    video identifier as its only query parameter, carries the configured
    credential in the [X-API-Key] header and asks for JSON; the outcome is
    the provider's answer to that request. *)
Theorem request_shape w videoId s url hdrs o :
  In (EvFetch url hdrs o) (events (getTranscript w videoId s)) ->
  url = ("https://api.supadata.ai/v1/youtube/transcript?videoId="
           +:+ encodeURIComponent videoId)
  /\ exists apiKey,
       SUPADATA_API_KEY (env w) = Some apiKey
       /\ apiKey <> EmptyString
       /\ hdrs = [("X-API-Key", apiKey); ("Accept", "application/json")]%string
       /\ o = remote w url hdrs.
Proof.
  intros Hin.
  run_cases; simpl in Hin; split_hyps;
    (split; [reflexivity|]); eexists;
    (split; [first [eassumption | reflexivity]|]);
    (split; [discriminate|]); (split; [reflexivity|]);
    unfold apiUrl, requestHeaders in *; congruence.
Qed.

Lemma request_shape_witness :
  apiUrl "abc123"
  = ("https://api.supadata.ai/v1/youtube/transcript?videoId="
       +:+ encodeURIComponent "abc123")
  /\ exists apiKey,
       SUPADATA_API_KEY
         (env (world (Some "key"%string) None not_found_404)) = Some apiKey
       /\ apiKey <> EmptyString
       /\ requestHeaders "key"
          = [("X-API-Key", apiKey); ("Accept", "application/json")]%string
       /\ not_found_404
          = remote (world (Some "key"%string) None not_found_404)
              (apiUrl "abc123") (requestHeaders "key").
Proof.
  apply (request_shape (world (Some "key"%string) None not_found_404)
           "abc123" ∅ (apiUrl "abc123") (requestHeaders "key") not_found_404).
  vm_compute. auto.
Defined.

(** X9: a value that an invocation returns is never made up: it is the
    value the cache read returned, or it is empty after a 404, or it comes
    from a successful JSON response without error message, as its
    transcript or as the empty sequence when that is absent. *)
Theorem result_provenance w videoId s l :
  result (getTranscript w videoId s) = Return (Some l) ->
  In (EvKvGet videoId (GetValue l)) (events (getTranscript w videoId s))
  \/ exists url hdrs r,
       In (EvFetch url hdrs (Responded r))
          (events (getTranscript w videoId s))
       /\ (status r = 404 /\ l = []
           \/ exists d,
                json_response r d /\ truthy (error d) = false
                /\ (transcript d = Some l
                    \/ transcript d = None /\ l = [])).
Proof.
  intros Hres. unfold json_response.
  run_cases; simplify_eq; bool_norm;
    first
      [ left; simpl; tauto
      | right; do 3 eexists; split; [simpl; eauto|];
        first [ left; split; [assumption|reflexivity]
              | right; eexists; repeat split; eauto ] ].
Qed.

Lemma result_provenance_witness :
  In (EvKvGet "cachedempty" (GetValue []))
     (events (getTranscript
                (world (Some "key"%string) (Some kv_ok) NetworkError)
                "cachedempty" cached_empty))
  \/ exists url hdrs r,
       In (EvFetch url hdrs (Responded r))
          (events (getTranscript
                     (world (Some "key"%string) (Some kv_ok) NetworkError)
                     "cachedempty" cached_empty))
       /\ (status r = 404 /\ ([] : list TranscriptEntry) = []
           \/ exists d,
                json_response r d /\ truthy (error d) = false
                /\ (transcript d = Some []
                    \/ transcript d = None
                       /\ ([] : list TranscriptEntry) = [])).
Proof.
  apply (result_provenance
           (world (Some "key"%string) (Some kv_ok) NetworkError)
           "cachedempty" cached_empty []).
  reflexivity.
Defined.

Lemma events_in_order_witness :
  http_calls (events (getTranscript
                (world (Some "key"%string) (Some kv_ok) not_found_404)
                "missing1" ∅)) = 1%nat.
Proof.
  apply (proj2 (events_in_order
                  (world (Some "key"%string) (Some kv_ok) not_found_404)
                  "missing1" ∅)
           (EvKvPut "missing1" [] (Some 3600) true)).
  - vm_compute. auto 6.
  - discriminate.
Defined.


(** ** The request URL *)

Lemma hex_digit_unreserved n : uri_unreserved (hex_digit n) = true.
Proof.
  destruct n as [|n]; [reflexivity|].
  do 4 (destruct n as [n|n|]; try reflexivity).
Qed.

Lemma hex_value_digit n : (n < 16)%N -> hex_value (hex_digit n) = n.
Proof.
  intros Hn. destruct n as [|n]; [reflexivity|].
  do 4 (destruct n as [n|n|]; try reflexivity; try lia).
Qed.

(** X10: the encoded video identifier consists of unreserved characters
    and percent signs only, so that no character of the identifier can end
    the query parameter or start another one. *)
Theorem encoded_id_is_url_safe videoId c :
  In c (list_ascii_of_string (encodeURIComponent videoId)) ->
  (uri_unreserved c = true \/ c = "%"%char)
  /\ c <> "&"%char /\ c <> "="%char /\ c <> "#"%char /\ c <> "?"%char
  /\ c <> "/"%char /\ c <> " "%char /\ c <> "+"%char.
Proof.
  intros Hin.
  assert (Hsafe : uri_unreserved c = true \/ c = "%"%char).
  { induction videoId as [|a rest IH]; simpl in Hin; [contradiction|].
    destruct (uri_unreserved a) eqn:Ha; simpl in Hin.
    - destruct Hin as [<-|Hin]; auto.
    - destruct Hin as [<-|[<-|[<-|Hin]]]; auto using hex_digit_unreserved. }
  split; [exact Hsafe|].
  repeat split; intros ->; destruct Hsafe as [Hu|Hp]; discriminate.
Qed.

Lemma encoded_id_is_url_safe_witness :
  (uri_unreserved "2" = true \/ "2"%char = "%"%char)
  /\ "2"%char <> "&"%char /\ "2"%char <> "="%char /\ "2"%char <> "#"%char
  /\ "2"%char <> "?"%char /\ "2"%char <> "/"%char /\ "2"%char <> " "%char
  /\ "2"%char <> "+"%char.
Proof.
  apply (encoded_id_is_url_safe "a&b" "2"%char).
  vm_compute. auto.
Defined.

Lemma append_inj_r (prefix x y : string) :
  prefix +:+ x = prefix +:+ y -> x = y.
Proof.
  induction prefix as [|a prefix IH]; simpl; intros H; [exact H|].
  injection H as H. auto.
Qed.

Lemma encodeURIComponent_inj s1 : forall s2,
  encodeURIComponent s1 = encodeURIComponent s2 -> s1 = s2.
Proof.
  induction s1 as [|a s1 IH]; intros [|b s2]; simpl.
  - reflexivity.
  - destruct (uri_unreserved b); discriminate.
  - destruct (uri_unreserved a); discriminate.
  - destruct (uri_unreserved a) eqn:Ha, (uri_unreserved b) eqn:Hb;
      intros H.
    + injection H as -> H. f_equal. auto.
    + injection H as -> _. discriminate.
    + injection H as <- _. discriminate.
    + injection H as Hhi Hlo H. f_equal; [|auto].
      pose proof (N_ascii_bounded a) as Hba.
      pose proof (N_ascii_bounded b) as Hbb.
      apply (f_equal hex_value) in Hhi, Hlo.
      rewrite !hex_value_digit in Hhi, Hlo
        by (try apply N.mod_upper_bound; try apply N.Div0.div_lt_upper_bound;
            lia).
      rewrite <- (ascii_N_embedding a), <- (ascii_N_embedding b).
      f_equal.
      rewrite (N.div_mod (N_of_ascii a) 16), (N.div_mod (N_of_ascii b) 16)
        by lia.
      congruence.
Qed.

(** X11: two different video identifiers are never fetched from the same
    URL. *)
Theorem request_url_identifies_video videoId1 videoId2 :
  videoId1 <> videoId2 -> apiUrl videoId1 <> apiUrl videoId2.
Proof.
  unfold apiUrl. intros Hne H. apply Hne.
  apply encodeURIComponent_inj. exact (append_inj_r _ _ _ H).
Qed.

Lemma request_url_identifies_video_witness :
  apiUrl "a/b" <> apiUrl "a%2Fb".
Proof.
  apply (request_url_identifies_video "a/b" "a%2Fb"). discriminate.
Defined.

(** X12: a video identifier made of unreserved characters only (letters,
    digits, [-] and [_] among them) is put in the URL as it is. *)
Theorem plain_id_is_not_escaped videoId :
  Forall (fun c => uri_unreserved c = true) (list_ascii_of_string videoId) ->
  apiUrl videoId
  = ("https://api.supadata.ai/v1/youtube/transcript?videoId=" +:+ videoId).
Proof.
  intros Hall. unfold apiUrl. f_equal.
  induction videoId as [|a rest IH]; [reflexivity|].
  simpl in Hall. inversion Hall as [|? ? Ha Hrest]; subst.
  simpl. rewrite Ha. f_equal. auto.
Qed.

Lemma plain_id_is_not_escaped_witness :
  apiUrl "dQw4w9WgXcQ"
  = "https://api.supadata.ai/v1/youtube/transcript?videoId=dQw4w9WgXcQ"%string.
Proof.
  apply (plain_id_is_not_escaped "dQw4w9WgXcQ").
  repeat constructor.
Defined.

(** ** The content-type test *)

Lemma prefix_spec needle : forall hay,
  String.prefix needle hay = true <-> exists post, hay = needle +:+ post.
Proof.
  induction needle as [|a needle IH]; intros [|b hay]; simpl.
  - split; [eauto|reflexivity].
  - split; [eauto|reflexivity].
  - split; [discriminate|]. intros [post H]. discriminate.
  - destruct (ascii_dec a b) as [->|Hne].
    + rewrite IH. split; intros [post H]; exists post.
      * subst hay. reflexivity.
      * change (String b hay = String b (needle +:+ post)) in H. congruence.
    + split; [discriminate|]. intros [post H].
      change (String b hay = String a (needle +:+ post)) in H. congruence.
Qed.

(** X13: the test [includes] of the content-type header holds exactly when
    the header value can be cut into a part before, the text searched for
    and a part after. *)
Theorem includes_is_substring needle hay :
  includes needle hay = true
  <-> exists pre post, hay = pre +:+ needle +:+ post.
Proof.
  assert (Hhere : forall h, String.prefix needle h = true ->
                            exists pre post, h = pre +:+ needle +:+ post).
  { intros h Hp. apply prefix_spec in Hp as [post H].
    exists EmptyString, post. exact H. }
  assert (Hnot : forall h post, String.prefix needle h = false ->
                                h <> needle +:+ post).
  { intros h post Hp H.
    assert (String.prefix needle h = true) by (apply prefix_spec; eauto).
    congruence. }
  induction hay as [|b hay IH].
  - change (includes needle "")
      with (if String.prefix needle "" then true else false).
    destruct (String.prefix needle "") eqn:Hp.
    + split; [auto|reflexivity].
    + split; [discriminate|]. intros ([|a pre] & post & H).
      * exfalso. exact (Hnot _ _ Hp H).
      * discriminate.
  - change (includes needle (String b hay))
      with (if String.prefix needle (String b hay) then true
            else includes needle hay).
    destruct (String.prefix needle (String b hay)) eqn:Hp.
    + split; [auto|reflexivity].
    + rewrite IH. split.
      * intros (pre & post & ->). exists (String b pre), post. reflexivity.
      * intros ([|a pre] & post & H).
        -- exfalso. exact (Hnot _ _ Hp H).
        -- change (String b hay = String a (pre +:+ needle +:+ post)) in H.
           injection H as -> ->. eauto.
Qed.

Lemma includes_is_substring_witness :
  includes "application/json" "application/json; charset=utf-8" = true.
Proof.
  apply (proj2 (includes_is_substring "application/json"
                  "application/json; charset=utf-8")).
  exists EmptyString, "; charset=utf-8"%string. reflexivity.
Defined.

(** ** The time label *)


(** X14: whenever the label of an offset exists it has five characters
    with a colon in the middle. *)
Theorem time_label_shape t label :
  time_label t = Some label ->
  exists a b c d,
    label = String a (String b (String ":" (String c (String d "")))).
Proof.
  unfold time_label, toISOString, year_string.
  destruct (maxTimeValue <? Z.abs t); [discriminate|].
  destruct ((0 <=? YearFromTime t) && (YearFromTime t <=? 9999));
    intros H; injection H as <-; do 4 eexists; reflexivity.
Qed.

Lemma time_label_shape_witness :
  exists a b c d,
    "02:05"%string = String a (String b (String ":" (String c (String d "")))).
Proof.
  apply (time_label_shape 3725123 "02:05"). reflexivity.
Defined.

(** X15: within the years 0 to 9999 the label depends on the whole seconds
    of the offset modulo one hour only: milliseconds are dropped, and the
    label starts again from 00:00 every hour. *)
Theorem time_label_wraps_every_hour t t' :
  four_digit_year t ->
  four_digit_year t' ->
  (t / 1000) mod 3600 = (t' / 1000) mod 3600 ->
  time_label t = time_label t'.
Proof.
  intros Ht Ht' Heq.
  rewrite (time_label_four_digit_year t Ht),
    (time_label_four_digit_year t' Ht').
  unfold minutes_seconds, MinFromTime, SecFromTime.
  assert (Hmin : (t / 60000) mod 60 = (t' / 60000) mod 60)
    by (Z.to_euclidean_division_equations; lia).
  assert (Hsec : (t / 1000) mod 60 = (t' / 1000) mod 60)
    by (Z.to_euclidean_division_equations; lia).
  rewrite Hmin, Hsec. reflexivity.
Qed.

Lemma time_label_wraps_every_hour_witness :
  time_label 61000 = time_label 3661999.
Proof.
  apply (time_label_wraps_every_hour 61000 3661999);
    unfold four_digit_year; try lia; reflexivity.
Defined.

(** ** Rendering the transcript *)


Lemma render_entries_rows entries : forall index s rows s' t,
  render_entries index entries s = (Return rows, s', t) ->
  length rows = length entries
  /\ forall i entry,
       entries !! i = Some entry ->
       exists label,
         time_label (offset entry) = Some label
         /\ rows !! i = Some (entry_row (index + i) label (text entry)).
Proof.
  induction entries as [|entry rest IH]; intros index s rows s' t Hrun.
  - injection Hrun as <- _ _. split; [reflexivity|]. intros i e H.
    rewrite lookup_nil in H. discriminate.
  - cbn [render_entries] in Hrun.
    destruct (time_label (offset entry)) as [label|] eqn:Hlabel;
      [|discriminate].
    unfold bind in Hrun.
    destruct (render_entries (S index) rest s) as [[[rows'|] s1] t1] eqn:Hrest;
      [|discriminate].
    injection Hrun as <- _ _.
    destruct (IH _ _ _ _ _ Hrest) as [Hlen Hrows].
    split; [simpl; congruence|].
    intros [|i] e He; simpl in He.
    + injection He as <-. exists label. split; [exact Hlabel|].
      rewrite Nat.add_0_r. reflexivity.
    + destruct (Hrows i e He) as (l & Hl & Hrow). exists l.
      split; [exact Hl|]. simpl. rewrite Hrow.
      replace (index + S i)%nat with (S index + i)%nat by lia. reflexivity.
Qed.



(** X17: when the page renders a transcript it has one row per entry, in
    the order of the entries, and the row of the entry at position [i] has
    the key [i], the label of its offset and its text. *)
Theorem page_rows_follow_entries w searchParams s videoId entries page :
  searchParams !! "v"%string = Some (PString videoId) ->
  videoId <> EmptyString ->
  result (getTranscript w videoId s) = Return (Some entries) ->
  entries <> [] ->
  result (WatchPage w searchParams s) = Return page ->
  exists rows,
    page = transcript_page videoId rows
    /\ length rows = length entries
    /\ map row_key rows = map Some (seq 0 (length entries))
    /\ forall i entry,
         entries !! i = Some entry ->
         exists label,
           time_label (offset entry) = Some label
           /\ rows !! i = Some (entry_row i label (text entry)).
Proof.
  intros Hv Hne Hres Hentries Hpage.
  unfold WatchPage in Hpage. rewrite Hv in Hpage.
  destruct videoId as [|c rest]; [congruence|].
  unfold bind, result in *.
  destruct (getTranscript w (String c rest) s) as [[o s1] t1].
  cbn [fst snd] in Hres. subst o.
  destruct entries as [|e es]; [congruence|].
  destruct (render_entries 0 (e :: es) s1) as [[[rows|] s2] t2] eqn:Hrun;
    cbn [ret fst snd] in Hpage; [|discriminate].
  injection Hpage as <-.
  destruct (render_entries_rows _ _ _ _ _ _ Hrun) as [Hlen Hrows].
  exists rows. split; [reflexivity|]. split; [exact Hlen|]. split; [|exact Hrows].
  apply list_eq. intros i. rewrite !list_lookup_fmap.
  destruct (decide (i < length (e :: es))%nat) as [Hlt|Hge].
  - destruct (lookup_lt_is_Some_2 (e :: es) i Hlt) as [entry Hentry].
    destruct (Hrows i entry Hentry) as (label & _ & Hrow).
    rewrite Hrow. rewrite lookup_seq_lt by exact Hlt. reflexivity.
  - rewrite (lookup_ge_None_2 rows i) by lia.
    rewrite lookup_seq_ge by lia. reflexivity.
Qed.

Lemma page_rows_follow_entries_witness :
  exists rows,
    transcript_page "abc123" (expected_rows 0 hello)
    = transcript_page "abc123" rows
    /\ length rows = length hello
    /\ map row_key rows = map Some (seq 0 (length hello))
    /\ forall i entry,
         hello !! i = Some entry ->
         exists label,
           time_label (offset entry) = Some label
           /\ rows !! i = Some (entry_row i label (text entry)).
Proof.
  apply (page_rows_follow_entries
           (world (Some "key"%string) (Some kv_ok)
              (json_200 (mkData (Some hello) None)))
           (v_is "abc123") ∅ "abc123" hello
           (transcript_page "abc123" (expected_rows 0 hello)));
    try reflexivity; discriminate.
Defined.

(** ** The causes of a failure *)


